(** * M-PACT: the HMDB51 frame-rate reducer of [load_dataset_tfrecords.py]

    A shallow embedding of [_reduce_fps] (30 fps to 25 fps by dropping one
    frame out of every six) and of the TensorFlow operations it is built
    from, followed by the properties of the reducer; then the parts of its
    caller [load_dataset] that are computed in the file itself.

    Conventions.
    - An [int32] scalar is a [Z]; arithmetic on it wraps ([wrap32]).
    - A rank-1 [int32] tensor is a [list Z]; a rank-2 one is a list of rows.
    - The video tensor has shape [frames, height, width, channels]; only
      its outermost axis matters here, so it is a list of frames of an
      arbitrary type.
    - An operation that TensorFlow rejects at run time ([InvalidArgument])
      returns [None]; the function is written in the option monad.
    - Where the state of the session matters (what a run reads and what it
      leaves behind), the function is written a second time over an
      explicit session ([session._reduce_fps]) and shown to agree. *)

From Stdlib Require Import ZArith QArith Qround Lia.
From Stdlib Require Import String.
From stdpp Require Import base option list list_numbers.

Local Open Scope Z_scope.

(** ** The TensorFlow operations used by the reducer *)

Module tf.

(** Two's-complement reduction of an integer to the [int32] range. *)
Definition wrap32 (z : Z) : Z := (z + 2 ^ 31) `mod` 2 ^ 32 - 2 ^ 31.

Definition int32_max : Z := 2 ^ 31 - 1.

(** [tf.multiply], [tf.add], [tf.subtract] on [int32] scalars. *)
Definition multiply (x y : Z) : Z := wrap32 (x * y).
Definition add (x y : Z) : Z := wrap32 (x + y).
Definition subtract (x y : Z) : Z := wrap32 (x - y).

(** [tf.equal] on scalars. *)
Definition equal (x y : Z) : bool := bool_decide (x = y).

(** [tf.divide] of two integer tensors is true division: both sides are
    converted to floating point.  The quotient is kept as an exact
    rational; [float64] represents every [int32] exactly, a quotient by 6
    that is an integer is computed exactly, and one that is not stays
    strictly between its two neighbouring integers, so [ceil] below
    returns the same integer as on the rounded [float64]. *)
Definition divide (x y : Z) : Q := (inject_Z x / inject_Z y)%Q.

(** [tf.ceil]. *)
Definition ceil (q : Q) : Z := Qceiling q.

(** [tf.cast(_, tf.int32)] of an integral value. *)
Definition cast_int32 (z : Z) : Z := wrap32 z.

(** [tf.tile(t, [multiples])] on a rank-1 tensor; a negative multiple is
    rejected. *)
Definition tile (t : list Z) (multiples : Z) : option (list Z) :=
  if decide (multiples < 0) then None
  else Some (mjoin (replicate (Z.to_nat multiples) t)).

(** [tf.reshape(t, [n])] where [elems] are the elements of [t] in
    row-major order: the element count must be [n], unless [n] is the
    wildcard [-1]. *)
Definition reshape (elems : list Z) (n : Z) : option (list Z) :=
  if decide (n = -1) then Some elems
  else if decide (Z.of_nat (length elems) = n) then Some elems
  else None.

(** [tf.range(limit)]: requires [0 <= limit]. *)
Definition range (limit : Z) : option (list Z) :=
  if decide (limit < 0) then None else Some (seqZ 0 limit).

(** [tf.stack] of rank-1 tensors of one length, along axis 0. *)
Definition stack (ts : list (list Z)) : list (list Z) := ts.

(** [tf.transpose] of a rank-2 tensor. *)
Fixpoint transpose (m : list (list Z)) : list (list Z) :=
  match m with
  | [] => []
  | [r] => (λ x, [x]) <$> r
  | r :: m' => zip_with cons r (transpose m')
  end.

(** Row-major element order of a rank-2 tensor. *)
Definition elements (m : list (list Z)) : list Z := mjoin m.

(** [tf.multiply(t, c)] with the scalar [c] broadcast. *)
Definition multiply_scalar (t : list Z) (c : Z) : list Z :=
  (λ x, multiply x c) <$> t.

(** [tf.add] of two rank-1 tensors of one shape. *)
Definition add_tensors (s t : list Z) : list Z := zip_with add s t.

(** [tf.slice(t, [begin], [size])]: [size = -1] takes the rest;
    otherwise [0 <= begin], [0 <= size] and [begin + size <= len t] are
    required. *)
Definition slice (t : list Z) (begin size : Z) : option (list Z) :=
  if decide (begin < 0 ∨ Z.of_nat (length t) < begin) then None
  else if decide (size = -1) then Some (drop (Z.to_nat begin) t)
  else if decide (size < 0 ∨ Z.of_nat (length t) < begin + size) then None
  else Some (take (Z.to_nat size) (drop (Z.to_nat begin) t)).

(** [tf.gather(params, indices)] along axis 0: every index must lie in
    [0, len params). *)
Definition gather {A : Type} (params : list A) (indices : list Z)
  : option (list A) :=
  mapM (λ i, if decide (0 ≤ i) then params !! Z.to_nat i else None) indices.

End tf.

(** ** The reducer *)

(** [_reduce_fps(video, frame_count)], statement by statement.  The result
    is [(output, output_frames, indices)]. *)
Definition _reduce_fps {A : Type} (video : list A) (frame_count : Z)
  : option (list A * Z * list Z) :=
  let remove_count := tf.cast_int32 (tf.ceil (tf.divide frame_count 6)) in
  let intermediate_frames := tf.multiply remove_count 5 in
  indices ← tf.tile [0; 1; 2; 3; 4] remove_count;
  indices ← tf.reshape indices intermediate_frames;
  additions ← tf.range remove_count;
  let additions :=
    tf.stack [additions; additions; additions; additions; additions] in
  let additions := tf.transpose additions in
  additions ← tf.reshape (tf.elements additions) intermediate_frames;
  let additions := tf.multiply_scalar additions 6 in
  let indices := tf.add_tensors indices additions in
  let remove_count :=
    if tf.equal frame_count (tf.multiply remove_count 6)
    then remove_count
    else tf.subtract remove_count 1 in
  let output_frames := tf.subtract frame_count remove_count in
  indices ← tf.slice indices 0 output_frames;
  indices_to_keep ← tf.reshape indices output_frames;
  output ← tf.gather video indices_to_keep;
  Some (output, output_frames, indices).

(** ** The kept frame positions, in closed form *)

(** The five positions kept from period [p]: [6p, 6p+1, ..., 6p+4]. *)
Definition period (p : Z) : list Z := (λ k, 6 * p + k) <$> [0; 1; 2; 3; 4].

(** Whole periods followed by the head of the last, partial one. *)
Definition keep_indices (n : Z) : list Z :=
  (seqZ 0 (n `div` 6) ≫= period)
  ++ take (Z.to_nat (n `mod` 6)) (period (n `div` 6)).

(** The period as the code computes it, every sum and product wrapped. *)
Definition wperiod (p : Z) : list Z :=
  (λ k, tf.add k (tf.multiply p 6)) <$> [0; 1; 2; 3; 4].

(** Position [i] of the output holds input frame [i + i / 5]. *)
Definition source_index (i : Z) : Z := i + i `div` 5.

(** ** The algorithm as the specification words it *)

(** Step 1: the number of complete-or-partial 6-frame periods,
    [period_count = ceil(N / 6)]. *)
Definition period_count (n : Z) : Z := Qceiling (inject_Z n / inject_Z 6).

(** Step 4: [period_count] frames are dropped when [N] is exactly
    divisible by 6, [period_count - 1] otherwise. *)
Definition dropped_count (n : Z) : Z :=
  if decide (n `mod` 6 = 0) then period_count n else period_count n - 1.

(** ** The caller: [load_dataset]

    The queue of record files, the record parser and the model's own
    preprocessing are TensorFlow and model code; what [load_dataset] itself
    computes is the list of record files and, for every decoded sample, the
    frames and the frame count it hands to the preprocessing. *)

(** [os.path.join(a, b)] on POSIX paths. *)
Definition path_join (a b : string) : string :=
  if String.prefix "/" b then b
  else if (String.eqb a "" || String.eqb
             (String.substring (String.length a - 1) 1 a) "/")%bool
       then (a ++ b)%string
       else (a ++ "/" ++ b)%string.

(** Lines 28-33: the loop over [os.listdir(base_data_path)], appending the
    joined path and counting; the state is
    [(filenames, number_of_tfrecords)]. *)
Definition list_tfrecords (base_data_path : string) (listing : list string)
  : list string * Z :=
  foldl (λ '(filenames, number_of_tfrecords) f,
           (filenames ++ [path_join base_data_path f],
            number_of_tfrecords + 1))
        ([], 0) listing.

(** [input_data_tensor[..., ::-1]] (line 64): the last axis of the
    [frames, height, width, channels] tensor reversed, BGR to RGB. *)
Definition reverse_channels (input_data_tensor : list (list (list (list Z))))
  : list (list (list (list Z))) :=
  (λ frame : list (list (list Z)),
     (λ row : list (list Z), (λ pixel : list Z, reverse pixel) <$> row)
       <$> frame)
    <$> input_data_tensor.

(** [needle in s] on Python strings: [needle] occurs in [s]. *)
Fixpoint str_in (needle s : string) : bool :=
  String.prefix needle s
  || match s with
     | EmptyString => false
     | String _ s' => str_in needle s'
     end.

(** Lines 63-68, for one decoded sample: the channel reversal, then the
    frame-rate reduction when the dataset name contains [HMDB51].  The
    result is the [(input_data_tensor, frames)] passed on to
    [model.preprocess_tfrecords]. *)
Definition load_dataset_frames (dataset : string)
    (input_data_tensor : list (list (list (list Z)))) (frames : Z)
  : option (list (list (list (list Z))) * Z) :=
  let input_data_tensor := reverse_channels input_data_tensor in
  if str_in "HMDB51" dataset then
    r ← _reduce_fps input_data_tensor frames;
    let '(input_data_tensor, frames, indices) := r in
    Some (input_data_tensor, frames)
  else Some (input_data_tensor, frames).

(** ** The reducer inside a session

    In graph mode [video] is the name of a tensor; its value is held by the
    session that runs the graph, next to the other tensors computed so far
    and to the state of the random generator that [load_dataset] seeds
    ([tf.set_random_seed(0)], [seed=0]).  A run takes the session to an
    outcome and a new session. *)

Module session.

(** A frame tensor is named by its position in [tensors]. *)
Record state (A : Type) : Type := State {
  tensors : list (list A);
  random_state : Z;
}.
Arguments State {A} _ _.
Arguments tensors {A} _.
Arguments random_state {A} _.

Definition run (A X : Type) : Type := state A → option (X * state A).

Definition ret {A X : Type} (x : X) : run A X := λ s, Some (x, s).

Definition bind {A X Y : Type} (m : run A X) (f : X → run A Y) : run A Y :=
  λ s, match m s with
       | Some (x, s') => f x s'
       | None => None
       end.

#[global] Instance run_ret {A : Type} : MRet (run A) := λ X x, ret x.
#[global] Instance run_bind {A : Type} : MBind (run A) := λ X Y f m, bind m f.

(** An operation on [int32] tensors, computed from its operands. *)
Definition stateless {A X : Type} (r : option X) : run A X :=
  λ s, match r with
       | Some x => Some (x, s)
       | None => None
       end.

(** The value of the frame tensor named [t]. *)
Definition value {A : Type} (t : nat) : run A (list A) :=
  λ s, match tensors s !! t with
       | Some v => Some (v, s)
       | None => None
       end.

(** A computed frame tensor gets the next name. *)
Definition new_tensor {A : Type} (v : list A) : run A nat :=
  λ s, Some (length (tensors s),
             State (tensors s ++ [v]) (random_state s)).

(** [tf.gather(params, indices)] on a named frame tensor: a new tensor. *)
Definition gather {A : Type} (params : nat) (indices : list Z) : run A nat :=
  v ← value params;
  output ← stateless (tf.gather v indices);
  new_tensor output.

(** [tf.set_random_seed(seed)] (line 42 of [load_dataset]). *)
Definition set_random_seed {A : Type} (seed : Z) : run A () :=
  λ s, Some ((), State (tensors s) seed).

(** [_reduce_fps(video, frame_count)] with [video] a tensor name; the
    result names the output tensor. *)
Definition _reduce_fps {A : Type} (video : nat) (frame_count : Z)
  : run A (nat * Z * list Z) :=
  let remove_count := tf.cast_int32 (tf.ceil (tf.divide frame_count 6)) in
  let intermediate_frames := tf.multiply remove_count 5 in
  indices ← stateless (tf.tile [0; 1; 2; 3; 4] remove_count);
  indices ← stateless (tf.reshape indices intermediate_frames);
  additions ← stateless (tf.range remove_count);
  let additions :=
    tf.stack [additions; additions; additions; additions; additions] in
  let additions := tf.transpose additions in
  additions ← stateless (tf.reshape (tf.elements additions) intermediate_frames);
  let additions := tf.multiply_scalar additions 6 in
  let indices := tf.add_tensors indices additions in
  let remove_count :=
    if tf.equal frame_count (tf.multiply remove_count 6)
    then remove_count
    else tf.subtract remove_count 1 in
  let output_frames := tf.subtract frame_count remove_count in
  indices ← stateless (tf.slice indices 0 output_frames);
  indices_to_keep ← stateless (tf.reshape indices output_frames);
  output ← gather video indices_to_keep;
  mret (output, output_frames, indices).

End session.

(** ** Arithmetic and tensor lemmas *)

Section arith.
Import tf.

Lemma wrap32_id z : - 2 ^ 31 ≤ z ≤ int32_max → wrap32 z = z.
Proof.
  unfold wrap32, int32_max. intros Hz.
  rewrite Z.mod_small by lia. lia.
Qed.

Lemma ceil_divide_6 n : ceil (divide n 6) = - ((- n) `div` 6).
Proof.
  unfold ceil, divide, Qceiling, Qfloor, Qdiv, Qmult, Qinv, Qopp, inject_Z.
  simpl. rewrite Z.mul_1_r. reflexivity.
Qed.

Lemma ceil_divide_6_nonneg n : 0 ≤ n → ceil (divide n 6) = (n + 5) `div` 6.
Proof.
  intros _. rewrite ceil_divide_6.
  pose proof (Z.div_mod (- n) 6 ltac:(lia)).
  pose proof (Z.mod_pos_bound (- n) 6 ltac:(lia)).
  pose proof (Z.div_mod (n + 5) 6 ltac:(lia)).
  pose proof (Z.mod_pos_bound (n + 5) 6 ltac:(lia)).
  lia.
Qed.

Lemma elements_transpose_stack l :
  elements (transpose (stack [l; l; l; l; l])) = l ≫= λ p, [p; p; p; p; p].
Proof.
  unfold elements, stack.
  induction l as [|x l IH]; [reflexivity|].
  simpl in *. do 5 f_equal. exact IH.
Qed.

Lemma add_tile_additions l :
  add_tensors (mjoin (replicate (length l) [0; 1; 2; 3; 4]))
              (multiply_scalar (l ≫= λ p, [p; p; p; p; p]) 6)
  = l ≫= wperiod.
Proof.
  unfold add_tensors, multiply_scalar.
  induction l as [|x l IH]; [reflexivity|].
  simpl in *. do 5 f_equal. exact IH.
Qed.

Lemma length_bind_wperiod l : length (l ≫= wperiod) = (5 * length l)%nat.
Proof.
  induction l as [|x l IH]; [reflexivity|].
  rewrite bind_cons, length_app, IH. unfold wperiod.
  rewrite length_fmap. simpl length. lia.
Qed.

Lemma length_bind_period l : length (l ≫= period) = (5 * length l)%nat.
Proof.
  induction l as [|x l IH]; [reflexivity|].
  rewrite bind_cons, length_app, IH. unfold period.
  rewrite length_fmap. simpl length. lia.
Qed.

Lemma wperiod_head p k :
  0 ≤ p → 0 ≤ k ≤ 5 → 6 * p + k - 1 ≤ int32_max →
  take (Z.to_nat k) (wperiod p) = take (Z.to_nat k) (period p).
Proof.
  intros Hp Hk Hmax.
  destruct (decide (k = 0)) as [->|Hk0]; [reflexivity|].
  assert (Hm : multiply p 6 = 6 * p).
  { unfold multiply. rewrite wrap32_id; unfold int32_max in *; lia. }
  assert (Ha : ∀ j, 0 ≤ j < k → add j (multiply p 6) = 6 * p + j).
  { intros j Hj. rewrite Hm. unfold add.
    rewrite wrap32_id; unfold int32_max in *; lia. }
  unfold wperiod, period.
  assert (k = 1 ∨ k = 2 ∨ k = 3 ∨ k = 4 ∨ k = 5) as Hcases by lia.
  destruct Hcases as [->|[->|[->|[->| ->]]]];
    cbn [Z.to_nat Pos.to_nat Pos.iter_op Nat.add take fmap list_fmap];
    rewrite ?Ha by lia; reflexivity.
Qed.

Lemma wperiod_whole p :
  0 ≤ p → 6 * p + 4 ≤ int32_max → wperiod p = period p.
Proof.
  intros Hp Hmax.
  apply (wperiod_head p 5); [done|lia|lia].
Qed.

Lemma bind_wperiod q :
  0 ≤ q → 6 * q - 2 ≤ int32_max →
  seqZ 0 q ≫= wperiod = seqZ 0 q ≫= period.
Proof.
  intros Hq Hmax.
  assert (Hall : Forall (λ p, wperiod p = period p) (seqZ 0 q)).
  { apply Forall_seqZ. intros p Hp. apply wperiod_whole; lia. }
  induction Hall as [|p l Hp _ IH]; [reflexivity|].
  by rewrite !bind_cons, Hp, IH.
Qed.

Lemma tile_nonneg t c :
  0 ≤ c → tile t c = Some (mjoin (replicate (Z.to_nat c) t)).
Proof. intros Hc. unfold tile. by rewrite decide_False by lia. Qed.

Lemma reshape_exact t n :
  Z.of_nat (length t) = n → reshape t n = Some t.
Proof.
  intros Hn. unfold reshape.
  rewrite decide_False by lia. by rewrite decide_True.
Qed.

Lemma range_nonneg c : 0 ≤ c → range c = Some (seqZ 0 c).
Proof. intros Hc. unfold range. by rewrite decide_False by lia. Qed.

Lemma slice_prefix t size :
  0 ≤ size ≤ Z.of_nat (length t) →
  slice t 0 size = Some (take (Z.to_nat size) t).
Proof.
  intros Hs. unfold slice.
  rewrite decide_False by lia. rewrite decide_False by lia.
  by rewrite decide_False by lia.
Qed.

Lemma remove_count_eq n :
  0 ≤ n ≤ int32_max → cast_int32 (ceil (divide n 6)) = (n + 5) `div` 6.
Proof.
  intros Hn. rewrite ceil_divide_6_nonneg by lia.
  unfold cast_int32. apply wrap32_id.
  pose proof (Z.div_mod (n + 5) 6 ltac:(lia)).
  pose proof (Z.mod_pos_bound (n + 5) 6 ltac:(lia)).
  unfold int32_max in *. lia.
Qed.

(** The code's equality test is the divisibility test. *)
Lemma equal_multiply_6 n :
  0 ≤ n ≤ int32_max →
  equal n (multiply ((n + 5) `div` 6) 6) = bool_decide (n `mod` 6 = 0).
Proof.
  intros Hn. unfold equal, multiply, wrap32, int32_max in *.
  pose proof (Z.div_mod (n + 5) 6 ltac:(lia)).
  pose proof (Z.mod_pos_bound (n + 5) 6 ltac:(lia)).
  pose proof (Z.div_mod n 6 ltac:(lia)).
  pose proof (Z.mod_pos_bound n 6 ltac:(lia)).
  set (c := (n + 5) `div` 6) in *.
  pose proof (Z.div_mod (c * 6 + 2 ^ 31) (2 ^ 32) ltac:(lia)).
  pose proof (Z.mod_pos_bound (c * 6 + 2 ^ 31) (2 ^ 32) ltac:(lia)).
  apply bool_decide_ext. lia.
Qed.

Lemma length_tile (t : list Z) k :
  length (mjoin (replicate k t)) = (k * length t)%nat.
Proof.
  induction k as [|k IH]; [reflexivity|].
  rewrite replicate_S. change (mjoin (t :: replicate k t)) with (t ++ mjoin (replicate k t)).
  rewrite length_app, IH. lia.
Qed.

Lemma length_bind_copies (l : list Z) :
  length (l ≫= λ p, [p; p; p; p; p]) = (5 * length l)%nat.
Proof.
  induction l as [|x l IH]; [reflexivity|].
  rewrite bind_cons, length_app, IH. simpl length. lia.
Qed.

(** The candidate sequence cut to the output length. *)
Lemma take_candidate n :
  0 ≤ n ≤ int32_max →
  take (Z.to_nat (n - n `div` 6)) (seqZ 0 ((n + 5) `div` 6) ≫= wperiod)
  = keep_indices n.
Proof.
  intros Hn. unfold keep_indices, int32_max in *.
  pose proof (Z.div_mod n 6 ltac:(lia)) as Hdm.
  pose proof (Z.mod_pos_bound n 6 ltac:(lia)) as Hr.
  set (q := n `div` 6) in *. set (r := n `mod` 6) in *.
  assert (0 ≤ q) as Hq by lia.
  destruct (decide (r = 0)) as [Hr0|Hr0].
  - assert ((n + 5) `div` 6 = q) as ->.
    { symmetry. apply (Z.div_unique _ _ _ 5); lia. }
    rewrite Hr0. rewrite take_0, app_nil_r.
    rewrite take_ge by (rewrite length_bind_wperiod, length_seqZ; lia).
    apply bind_wperiod; unfold int32_max; lia.
  - assert ((n + 5) `div` 6 = q + 1) as ->.
    { symmetry. apply (Z.div_unique _ _ _ (r - 1)); lia. }
    rewrite seqZ_app by lia. rewrite bind_app.
    replace (Z.to_nat (n - q)) with (Z.to_nat (5 * q) + Z.to_nat r)%nat by lia.
    rewrite take_app_add' by (rewrite length_bind_wperiod, length_seqZ; lia).
    rewrite bind_wperiod by (unfold int32_max; lia).
    f_equal. change (seqZ (0 + q) 1) with [0 + q]. rewrite bind_singleton.
    rewrite Z.add_0_l. apply wperiod_head; unfold int32_max; lia.
Qed.

Lemma reduce_fps_closed_form {A} (video : list A) n :
  0 ≤ n ≤ int32_max →
  _reduce_fps video n
  = output ← gather video (keep_indices n);
    Some (output, n - n `div` 6, keep_indices n).
Proof.
  intros Hn. unfold _reduce_fps. cbv zeta.
  rewrite remove_count_eq by done.
  rewrite equal_multiply_6 by done.
  pose proof (Z.div_mod n 6 ltac:(lia)) as Hdm.
  pose proof (Z.mod_pos_bound n 6 ltac:(lia)) as Hr.
  pose proof (Z.div_mod (n + 5) 6 ltac:(lia)) as Hdm'.
  pose proof (Z.mod_pos_bound (n + 5) 6 ltac:(lia)) as Hr'.
  set (c := (n + 5) `div` 6) in *.
  assert (multiply c 5 = 5 * c) as ->.
  { unfold multiply. rewrite wrap32_id; unfold int32_max in *; lia. }
  assert ((if bool_decide (n `mod` 6 = 0) then c else subtract c 1)
          = n `div` 6) as ->.
  { case_bool_decide.
    - lia.
    - unfold subtract. rewrite wrap32_id; unfold int32_max in *; lia. }
  assert (subtract n (n `div` 6) = n - n `div` 6) as ->.
  { unfold subtract. rewrite wrap32_id; unfold int32_max in *; lia. }
  rewrite tile_nonneg by lia. cbn [mbind option_bind].
  rewrite reshape_exact by (rewrite length_tile; simpl length; lia).
  cbn [mbind option_bind].
  rewrite range_nonneg by lia. cbn [mbind option_bind].
  rewrite elements_transpose_stack.
  rewrite reshape_exact
    by (rewrite length_bind_copies, length_seqZ; lia).
  cbn [mbind option_bind].
  replace (Z.to_nat c) with (length (seqZ 0 c)) by apply length_seqZ.
  rewrite add_tile_additions.
  rewrite slice_prefix
    by (rewrite length_bind_wperiod, length_seqZ; lia).
  cbn [mbind option_bind].
  rewrite reshape_exact
    by (rewrite length_take, length_bind_wperiod, length_seqZ; lia).
  cbn [mbind option_bind].
  subst c. by rewrite take_candidate.
Qed.
End arith.


(** ** The closed form, position by position *)

Section positions.

Lemma seqZ_5 m : seqZ m 5 = [m; m + 1; m + 2; m + 3; m + 4].
Proof.
  unfold seqZ. simpl.
  change (Z.of_nat 0 + m) with m.
  by rewrite (Z.add_comm _ m), (Z.add_comm _ m), (Z.add_comm _ m),
    (Z.add_comm _ m).
Qed.

Lemma source_index_period p k :
  0 ≤ k < 5 → source_index (5 * p + k) = 6 * p + k.
Proof.
  intros Hk. unfold source_index.
  rewrite <- (Z.div_unique (5 * p + k) 5 p k); lia.
Qed.

Lemma period_source_index p : period p = source_index <$> seqZ (5 * p) 5.
Proof.
  rewrite seqZ_5. unfold period.
  cbn [fmap list_fmap].
  rewrite <- (Z.add_0_r (5 * p)) at 1.
  by rewrite !source_index_period by lia.
Qed.

Lemma bind_period_source_index q :
  0 ≤ q → seqZ 0 q ≫= period = source_index <$> seqZ 0 (5 * q).
Proof.
  intros Hq. rewrite <- (Z2Nat.id q Hq).
  induction (Z.to_nat q) as [|i IH]; [reflexivity|].
  rewrite seqZ_S, bind_app, bind_singleton, IH.
  replace (5 * Z.of_nat (S i)) with (5 * Z.of_nat i + 5) by lia.
  rewrite seqZ_app, fmap_app by lia.
  by rewrite !Z.add_0_l, period_source_index.
Qed.

Lemma take_seqZ m r k : 0 ≤ r ≤ k → take (Z.to_nat r) (seqZ m k) = seqZ m r.
Proof.
  intros Hr. replace k with (r + (k - r)) by lia.
  rewrite seqZ_app by lia.
  apply take_app_length'. by rewrite length_seqZ.
Qed.

Lemma keep_indices_source_index n :
  0 ≤ n → keep_indices n = source_index <$> seqZ 0 (n - n `div` 6).
Proof.
  intros Hn. unfold keep_indices.
  pose proof (Z.div_mod n 6 ltac:(lia)) as Hdm.
  pose proof (Z.mod_pos_bound n 6 ltac:(lia)) as Hr.
  set (q := n `div` 6) in *. set (r := n `mod` 6) in *.
  rewrite bind_period_source_index by lia.
  rewrite period_source_index, <- fmap_take, take_seqZ by lia.
  replace (n - q) with (5 * q + r) by lia.
  rewrite (seqZ_app 0 (5 * q) r), fmap_app by lia.
  by rewrite Z.add_0_l.
Qed.

Lemma length_keep_indices n :
  0 ≤ n → Z.of_nat (length (keep_indices n)) = n - n `div` 6.
Proof.
  intros Hn. rewrite keep_indices_source_index by done.
  rewrite length_fmap, length_seqZ.
  pose proof (Z.div_mod n 6 ltac:(lia)).
  pose proof (Z.mod_pos_bound n 6 ltac:(lia)). lia.
Qed.

Lemma lookup_keep_indices n i x :
  0 ≤ n → keep_indices n !! i = Some x →
  x = source_index (Z.of_nat i) ∧ Z.of_nat i < n - n `div` 6.
Proof.
  intros Hn. rewrite keep_indices_source_index by done.
  rewrite list_lookup_fmap_Some.
  intros (y & -> & [-> Hy]%lookup_seqZ). by rewrite Z.add_0_l.
Qed.

Lemma source_index_lt i j : 0 ≤ i < j → source_index i < source_index j.
Proof.
  intros Hij. unfold source_index.
  pose proof (Z.div_le_mono i j 5 ltac:(lia) ltac:(lia)). lia.
Qed.

Lemma source_index_bound n i :
  0 ≤ i < n - n `div` 6 → 0 ≤ source_index i < n.
Proof.
  intros Hi. unfold source_index.
  pose proof (Z.div_mod n 6 ltac:(lia)).
  pose proof (Z.mod_pos_bound n 6 ltac:(lia)).
  pose proof (Z.div_mod i 5 ltac:(lia)).
  pose proof (Z.mod_pos_bound i 5 ltac:(lia)).
  lia.
Qed.

Lemma keep_indices_increasing n i j x y :
  0 ≤ n → (i < j)%nat →
  keep_indices n !! i = Some x → keep_indices n !! j = Some y → x < y.
Proof.
  intros Hn Hij [-> _]%lookup_keep_indices [-> _]%lookup_keep_indices; try done.
  apply source_index_lt. lia.
Qed.

Lemma keep_indices_in_range n :
  0 ≤ n → Forall (λ x, 0 ≤ x < n) (keep_indices n).
Proof.
  intros Hn. apply Forall_lookup. intros i x [-> Hi]%lookup_keep_indices; try done.
  apply source_index_bound. lia.
Qed.

End positions.

(** ** Gathering frames *)

Section gathering.
Context {A : Type}.
Implicit Types (video output : list A) (idx : list Z).

Lemma gather_lookup video idx output i k :
  tf.gather video idx = Some output → idx !! i = Some k →
  ∃ frame, output !! i = Some frame ∧ 0 ≤ k ∧ video !! Z.to_nat k = Some frame.
Proof.
  unfold tf.gather. intros Hg%mapM_Some_1 Hk.
  destruct (Forall2_lookup_l _ _ _ _ _ Hg Hk) as (frame & Ho & Hf).
  exists frame. case_decide; [done|discriminate].
Qed.

Lemma length_gather video idx output :
  tf.gather video idx = Some output → length output = length idx.
Proof. unfold tf.gather. intros Hg%length_mapM. done. Qed.

Lemma gather_in_range video idx :
  Forall (λ k, 0 ≤ k < Z.of_nat (length video)) idx →
  is_Some (tf.gather video idx).
Proof.
  intros Hall. unfold tf.gather. apply mapM_is_Some_2.
  eapply Forall_impl; [exact Hall|]. intros k Hk. cbn in *.
  rewrite decide_True by lia. apply lookup_lt_is_Some. lia.
Qed.

(** The gather only selects frames: it commutes with any change of the
    frame contents. *)
Lemma gather_fmap {B} (f : A → B) video idx :
  tf.gather (f <$> video) idx = (λ output, f <$> output) <$> tf.gather video idx.
Proof.
  unfold tf.gather.
  induction idx as [|k idx IH]; [reflexivity|].
  cbn [mapM]. rewrite IH. case_decide; [|reflexivity].
  rewrite list_lookup_fmap.
  destruct (video !! Z.to_nat k); [|reflexivity].
  cbn.
  match goal with |- context [mapM ?g idx] => by destruct (mapM g idx) end.
Qed.

(** So does the reducer: the count and the kept positions are computed
    without looking at any frame. *)
Lemma reduce_fps_fmap {B} (f : A → B) video n :
  _reduce_fps (f <$> video) n
  = (λ r : list A * Z * list Z, (f <$> r.1.1, r.1.2, r.2))
    <$> _reduce_fps video n.
Proof.
  unfold _reduce_fps. cbv zeta.
  repeat match goal with
         | |- context [mbind _ ?m] =>
             lazymatch m with
             | tf.gather _ _ => fail
             | _ => destruct m; cbn [mbind option_bind fmap option_fmap option_map];
                    [|reflexivity]
             end
         end.
  rewrite gather_fmap. by destruct (tf.gather video _).
Qed.

(** On a video of [n] frames the reducer returns, and what it returns is
    the gather of the closed-form positions. *)
Lemma reduce_fps_returns video n :
  0 ≤ n ≤ tf.int32_max → Z.of_nat (length video) = n →
  ∃ output,
    tf.gather video (keep_indices n) = Some output ∧
    _reduce_fps video n = Some (output, n - n `div` 6, keep_indices n).
Proof.
  intros Hn Hlen.
  destruct (gather_in_range video (keep_indices n)) as [output Hg].
  { rewrite Hlen. apply keep_indices_in_range. lia. }
  exists output. split; [done|].
  rewrite reduce_fps_closed_form by done. by rewrite Hg.
Qed.

End gathering.


(** ** Properties of the reducer *)

Section properties.
Context {A : Type}.
Implicit Types (video output : list A) (idx : list Z).

Lemma period_count_nonneg n : 0 ≤ n → period_count n = (n + 5) `div` 6.
Proof. apply ceil_divide_6_nonneg. Qed.

Lemma dropped_count_div n : 0 ≤ n → dropped_count n = n `div` 6.
Proof.
  intros Hn. unfold dropped_count. rewrite period_count_nonneg by done.
  pose proof (Z.div_mod n 6 ltac:(lia)).
  pose proof (Z.mod_pos_bound n 6 ltac:(lia)).
  pose proof (Z.div_mod (n + 5) 6 ltac:(lia)).
  pose proof (Z.mod_pos_bound (n + 5) 6 ltac:(lia)).
  case_decide; lia.
Qed.

(** C1: on a video whose frame count [n > 0] is an exact multiple of 6 the
    reducer returns [output_count = n - n/6] and, as kept positions, the
    concatenation of [{0,1,2,3,4} + 6p] for [p = 0 .. n/6 - 1]. *)
Theorem reduce_fps_multiple_of_6 video n :
  0 < n ≤ tf.int32_max → (6 | n) → Z.of_nat (length video) = n →
  ∃ output,
    _reduce_fps video n
    = Some (output, n - n `div` 6, seqZ 0 (n `div` 6) ≫= period).
Proof.
  intros Hn Hdiv Hlen.
  destruct (reduce_fps_returns video n) as (output & _ & Hret); [lia|done|].
  exists output. rewrite Hret. unfold keep_indices.
  apply Z.mod_divide in Hdiv; [|lia].
  by rewrite Hdiv, take_0, app_nil_r.
Qed.

(** C2: on a video whose frame count [n > 0] is not a multiple of 6 the
    reducer returns [output_count = n - (ceil(n/6) - 1)]; the kept
    positions are the whole periods followed by the first [n mod 6]
    positions of the last one. *)
Theorem reduce_fps_not_multiple_of_6 video n :
  0 < n ≤ tf.int32_max → ¬ (6 | n) → Z.of_nat (length video) = n →
  ∃ output,
    _reduce_fps video n
    = Some (output, n - (period_count n - 1), keep_indices n).
Proof.
  intros Hn Hdiv Hlen.
  destruct (reduce_fps_returns video n) as (output & _ & Hret); [lia|done|].
  exists output. rewrite Hret. do 2 f_equal.
  rewrite <- (dropped_count_div n) by lia. unfold dropped_count.
  rewrite decide_False; [done|].
  intros Hmod. apply Hdiv, Z.mod_divide; [lia|done].
Qed.

(** C3: for every frame count [n > 0] the kept positions are strictly
    increasing and all lie in [[0, n)], and the final gather of the frames
    at those positions succeeds. *)
Theorem reduce_fps_indices_increasing_in_range video n :
  0 < n ≤ tf.int32_max → Z.of_nat (length video) = n →
  ∃ output output_count idx,
    _reduce_fps video n = Some (output, output_count, idx) ∧
    (∀ i j x y, (i < j)%nat → idx !! i = Some x → idx !! j = Some y → x < y) ∧
    Forall (λ x, 0 ≤ x < n) idx ∧
    tf.gather video idx = Some output.
Proof.
  intros Hn Hlen.
  destruct (reduce_fps_returns video n) as (output & Hg & Hret); [lia|done|].
  exists output, (n - n `div` 6), (keep_indices n).
  split_and!; [done| |by apply keep_indices_in_range; lia|done].
  intros i j x y. apply keep_indices_increasing. lia.
Qed.

(** C4: for every input of [n ≥ 0] frames the returned triple has
    [output_count = len(keep_indices)], and the output frames are the input
    frames at the kept positions, in order. *)
Theorem reduce_fps_output_is_restriction video n :
  0 ≤ n ≤ tf.int32_max → Z.of_nat (length video) = n →
  ∃ output output_count idx,
    _reduce_fps video n = Some (output, output_count, idx) ∧
    output_count = Z.of_nat (length idx) ∧
    length output = length idx ∧
    (∀ i k, idx !! i = Some k →
       ∃ frame, output !! i = Some frame ∧ video !! Z.to_nat k = Some frame).
Proof.
  intros Hn Hlen.
  destruct (reduce_fps_returns video n) as (output & Hg & Hret); [lia|done|].
  exists output, (n - n `div` 6), (keep_indices n).
  split_and!; [done| | |].
  - by rewrite length_keep_indices by lia.
  - by eapply length_gather.
  - intros i k Hk.
    destruct (gather_lookup _ _ _ _ _ Hg Hk) as (frame & ? & _ & ?).
    by exists frame.
Qed.

(** C9: for every frame count [n ≥ 0] the output frame count is at most
    [n]: the reducer never returns more frames than it was given. *)
Theorem reduce_fps_count_le video n :
  0 ≤ n ≤ tf.int32_max → Z.of_nat (length video) = n →
  ∃ output output_count idx,
    _reduce_fps video n = Some (output, output_count, idx) ∧
    output_count ≤ n ∧ (length output ≤ length video)%nat.
Proof.
  intros Hn Hlen.
  destruct (reduce_fps_returns video n) as (output & Hg & Hret); [lia|done|].
  exists output, (n - n `div` 6), (keep_indices n).
  pose proof (Z.div_pos n 6 ltac:(lia) ltac:(lia)).
  split_and!; [done|lia|].
  apply length_gather in Hg.
  pose proof (length_keep_indices n ltac:(lia)). lia.
Qed.

(** C5: for every [n ≥ 0] the code's test [frame_count == remove_count * 6]
    on the ceiling-based [remove_count] holds exactly when 6 divides [n];
    so the code's choice between [remove_count] and [remove_count - 1] is
    the case split of step 4, and the returned count is [n] minus it. *)
Theorem equality_test_is_divisibility_test n :
  0 ≤ n ≤ tf.int32_max →
  (tf.equal n (tf.multiply (tf.cast_int32 (tf.ceil (tf.divide n 6))) 6) = true
   ↔ (6 | n)) ∧
  (if tf.equal n (tf.multiply (tf.cast_int32 (tf.ceil (tf.divide n 6))) 6)
   then tf.cast_int32 (tf.ceil (tf.divide n 6))
   else tf.subtract (tf.cast_int32 (tf.ceil (tf.divide n 6))) 1)
  = dropped_count n ∧
  (∀ video, Z.of_nat (length video) = n →
     ∃ output idx,
       _reduce_fps video n = Some (output, n - dropped_count n, idx)).
Proof.
  intros Hn. rewrite remove_count_eq, equal_multiply_6 by done.
  split_and!.
  - rewrite bool_decide_eq_true. apply Z.mod_divide. lia.
  - unfold dropped_count. rewrite period_count_nonneg by lia.
    pose proof (Z.div_mod (n + 5) 6 ltac:(lia)).
    pose proof (Z.mod_pos_bound (n + 5) 6 ltac:(lia)).
    case_bool_decide.
    + by rewrite decide_True.
    + rewrite decide_False by done. unfold tf.subtract.
      apply wrap32_id. unfold tf.int32_max in *. lia.
  - intros video Hlen.
    destruct (reduce_fps_returns video n) as (output & _ & Hret); [lia|done|].
    exists output, (keep_indices n). by rewrite dropped_count_div by lia.
Qed.

(** The count and the kept positions are computed from the frame count
    alone: two runs on the same frame count return the same
    [output_count] and [keep_indices] whatever the two videos hold. *)
Lemma reduce_fps_deterministic video1 video2 n o1 c1 i1 o2 c2 i2 :
  _reduce_fps video1 n = Some (o1, c1, i1) →
  _reduce_fps video2 n = Some (o2, c2, i2) →
  c1 = c2 ∧ i1 = i2 ∧ (video1 = video2 → o1 = o2).
Proof.
  intros H1 H2. split_and!; [| |intros ->; congruence].
  all: unfold _reduce_fps in *; cbv zeta in *.
  all: repeat match goal with
       | H : (?m ≫= _) = Some _ |- _ =>
           destruct m eqn:?; cbn [mbind option_bind] in *; [|discriminate]
       end.
  all: congruence.
Qed.

(** C7: the reduction is not idempotent.  From 7 frames on, running the
    reducer again on its own output returns strictly fewer frames. *)
Theorem reduce_fps_not_idempotent video n :
  7 ≤ n ≤ tf.int32_max → Z.of_nat (length video) = n →
  ∃ o1 c1 i1 o2 c2 i2,
    _reduce_fps video n = Some (o1, c1, i1) ∧
    _reduce_fps o1 c1 = Some (o2, c2, i2) ∧
    c2 < c1 ∧ (length o2 < length o1)%nat.
Proof.
  intros Hn Hlen.
  destruct (reduce_fps_returns video n) as (o1 & Hg1 & Hret1); [lia|done|].
  pose proof (length_keep_indices n ltac:(lia)) as Hlen1.
  apply length_gather in Hg1. rewrite <- Hg1 in Hlen1.
  pose proof (Z.div_mod n 6 ltac:(lia)).
  pose proof (Z.mod_pos_bound n 6 ltac:(lia)).
  set (c1 := n - n `div` 6) in *.
  assert (6 ≤ c1 ≤ tf.int32_max) as Hc1 by (unfold tf.int32_max in *; lia).
  destruct (reduce_fps_returns o1 c1) as (o2 & Hg2 & Hret2); [lia|done|].
  pose proof (length_keep_indices c1 ltac:(lia)) as Hlen2.
  apply length_gather in Hg2. rewrite <- Hg2 in Hlen2.
  pose proof (Z.div_mod c1 6 ltac:(lia)).
  pose proof (Z.mod_pos_bound c1 6 ltac:(lia)).
  exists o1, c1, (keep_indices n), o2, (c1 - c1 `div` 6), (keep_indices c1).
  split_and!; [done|done|lia|lia].
Qed.

(** Up to 6 frames the first output has at most 5 frames, and a second
    run returns it unchanged. *)
Lemma reduce_fps_twice_up_to_6 video n :
  0 ≤ n ≤ 6 → Z.of_nat (length video) = n →
  ∃ o1 c1 i1,
    _reduce_fps video n = Some (o1, c1, i1) ∧
    _reduce_fps o1 c1 = Some (o1, c1, i1).
Proof.
  intros Hn Hlen.
  assert (n = 0 ∨ n = 1 ∨ n = 2 ∨ n = 3 ∨ n = 4 ∨ n = 5 ∨ n = 6)
    as Hcases by lia.
  destruct video as [|f0 [|f1 [|f2 [|f3 [|f4 [|f5 [|f6 video]]]]]]];
    cbn [length] in Hlen;
    destruct Hcases as [->|[->|[->|[->|[->|[->| ->]]]]]]; try lia;
    (eexists _, _, _; split; [vm_compute; reflexivity|]);
    vm_compute; reflexivity.
Qed.

(** C8: with fewer than six frames ([0 < n < 6]) nothing is dropped: the
    dropped count is 0, the output count is [n], the kept positions are
    [0, 1, ..., n-1] and the output is the input. *)
Theorem reduce_fps_passthrough video n :
  0 < n < 6 → Z.of_nat (length video) = n →
  dropped_count n = 0 ∧
  _reduce_fps video n = Some (video, n, seqZ 0 n).
Proof.
  intros Hn Hlen.
  assert (n = 1 ∨ n = 2 ∨ n = 3 ∨ n = 4 ∨ n = 5) as Hcases by lia.
  destruct video as [|f0 [|f1 [|f2 [|f3 [|f4 [|f5 video]]]]]];
    cbn [length] in Hlen;
    destruct Hcases as [->|[->|[->|[->| ->]]]]; try lia;
    split; vm_compute; reflexivity.
Qed.

(** C10: on frame count 0 the reducer returns normally: [remove_count] is
    [ceil(0/6) = 0], the equality test [0 == 0 * 6] holds, and the result
    is the empty frame sequence, count 0 and no kept position. *)
Theorem reduce_fps_zero :
  tf.cast_int32 (tf.ceil (tf.divide 0 6)) = 0 ∧
  tf.equal 0 (tf.multiply 0 6) = true ∧
  ∀ video, _reduce_fps video 0 = Some ([], 0, []).
Proof. split_and!; [reflexivity|reflexivity|]. intros video. reflexivity. Qed.

End properties.

(** ** The theorems at concrete inputs *)

Lemma reduce_fps_multiple_of_6_witness :
  ∃ output,
    _reduce_fps (seq 0 12) 12
    = Some (output, 10, [0; 1; 2; 3; 4; 6; 7; 8; 9; 10]).
Proof.
  apply (reduce_fps_multiple_of_6 (seq 0 12) 12);
    [unfold tf.int32_max; lia | by exists 2 | reflexivity].
Defined.

Lemma reduce_fps_not_multiple_of_6_witness :
  ∃ output,
    _reduce_fps (seq 0 10) 10 = Some (output, 9, [0; 1; 2; 3; 4; 6; 7; 8; 9]).
Proof.
  apply (reduce_fps_not_multiple_of_6 (seq 0 10) 10);
    [unfold tf.int32_max; lia | intros [k Hk]; lia | reflexivity].
Defined.

Lemma reduce_fps_indices_increasing_in_range_witness :
  ∃ output output_count idx,
    _reduce_fps (seq 0 10) 10 = Some (output, output_count, idx) ∧
    (∀ i j x y, (i < j)%nat → idx !! i = Some x → idx !! j = Some y → x < y) ∧
    Forall (λ x, 0 ≤ x < 10) idx ∧
    tf.gather (seq 0 10) idx = Some output.
Proof.
  apply (reduce_fps_indices_increasing_in_range (seq 0 10) 10);
    [unfold tf.int32_max; lia | reflexivity].
Defined.

Lemma reduce_fps_output_is_restriction_witness :
  ∃ output output_count idx,
    _reduce_fps (seq 0 12) 12 = Some (output, output_count, idx) ∧
    output_count = Z.of_nat (length idx) ∧
    length output = length idx ∧
    (∀ i k, idx !! i = Some k →
       ∃ frame, output !! i = Some frame ∧
                seq 0 12 !! Z.to_nat k = Some frame).
Proof.
  apply (reduce_fps_output_is_restriction (seq 0 12) 12);
    [unfold tf.int32_max; lia | reflexivity].
Defined.

Lemma equality_test_is_divisibility_test_witness :
  (tf.equal 10 (tf.multiply (tf.cast_int32 (tf.ceil (tf.divide 10 6))) 6) = true
   ↔ (6 | 10)) ∧
  (if tf.equal 10 (tf.multiply (tf.cast_int32 (tf.ceil (tf.divide 10 6))) 6)
   then tf.cast_int32 (tf.ceil (tf.divide 10 6))
   else tf.subtract (tf.cast_int32 (tf.ceil (tf.divide 10 6))) 1)
  = dropped_count 10 ∧
  (∀ video : list nat, Z.of_nat (length video) = 10 →
     ∃ output idx,
       _reduce_fps video 10 = Some (output, 10 - dropped_count 10, idx)).
Proof.
  apply (equality_test_is_divisibility_test (A:=nat) 10).
  unfold tf.int32_max; lia.
Defined.

Lemma reduce_fps_not_idempotent_witness :
  ∃ o1 c1 i1 o2 c2 i2,
    _reduce_fps (seq 0 12) 12 = Some (o1, c1, i1) ∧
    _reduce_fps o1 c1 = Some (o2, c2, i2) ∧
    c2 < c1 ∧ (length o2 < length o1)%nat.
Proof.
  apply (reduce_fps_not_idempotent (seq 0 12) 12);
    [unfold tf.int32_max; lia | reflexivity].
Defined.

Lemma reduce_fps_passthrough_witness :
  dropped_count 5 = 0 ∧
  _reduce_fps (seq 0 5) 5 = Some (seq 0 5, 5, [0; 1; 2; 3; 4]).
Proof.
  apply (reduce_fps_passthrough (seq 0 5) 5); [lia | reflexivity].
Defined.

Lemma reduce_fps_count_le_witness :
  ∃ output output_count idx,
    _reduce_fps (seq 0 7) 7 = Some (output, output_count, idx) ∧
    output_count ≤ 7 ∧ (length output ≤ length (seq 0 7))%nat.
Proof.
  apply (reduce_fps_count_le (seq 0 7) 7);
    [unfold tf.int32_max; lia | reflexivity].
Defined.

(** ** The scenarios of the specification *)

Example reduce_fps_6 :
  _reduce_fps (seq 0 6) 6 = Some ([0; 1; 2; 3; 4]%nat, 5, [0; 1; 2; 3; 4]).
Proof. vm_compute. reflexivity. Qed.

Example reduce_fps_12 :
  _reduce_fps (seq 100 12) 12
  = Some ([100; 101; 102; 103; 104; 106; 107; 108; 109; 110]%nat, 10,
          [0; 1; 2; 3; 4; 6; 7; 8; 9; 10]).
Proof. vm_compute. reflexivity. Qed.

Example reduce_fps_10 :
  _reduce_fps (seq 100 10) 10
  = Some ([100; 101; 102; 103; 104; 106; 107; 108; 109]%nat, 9,
          [0; 1; 2; 3; 4; 6; 7; 8; 9]).
Proof. vm_compute. reflexivity. Qed.

Example reduce_fps_5 :
  _reduce_fps (seq 100 5) 5
  = Some ([100; 101; 102; 103; 104]%nat, 5, [0; 1; 2; 3; 4]).
Proof. vm_compute. reflexivity. Qed.

(** A second run on 12 frames: 12, then 10, then 9 frames. *)
Example reduce_fps_twice_12 :
  _reduce_fps [100; 101; 102; 103; 104; 106; 107; 108; 109; 110]%nat 10
  = Some ([100; 101; 102; 103; 104; 107; 108; 109; 110]%nat, 9,
          [0; 1; 2; 3; 4; 6; 7; 8; 9]).
Proof. vm_compute. reflexivity. Qed.

(** A video shorter than its declared frame count is rejected by the
    gather. *)
Example reduce_fps_short_video : _reduce_fps (seq 0 3) 10 = None.
Proof. vm_compute. reflexivity. Qed.

(** ** Further properties of the reducer *)

Section further.
Context {A : Type}.
Implicit Types (video output : list A) (idx : list Z).

(** A position is kept exactly when it is not the sixth of its period. *)
Lemma elem_of_keep_indices n x :
  0 ≤ n → x ∈ keep_indices n ↔ 0 ≤ x < n ∧ x `mod` 6 ≠ 5.
Proof.
  intros Hn. rewrite keep_indices_source_index by done.
  rewrite list_elem_of_fmap. setoid_rewrite elem_of_seqZ.
  unfold source_index.
  pose proof (Z.div_mod n 6 ltac:(lia)).
  pose proof (Z.mod_pos_bound n 6 ltac:(lia)).
  pose proof (Z.div_mod x 6 ltac:(lia)).
  pose proof (Z.mod_pos_bound x 6 ltac:(lia)).
  split.
  - intros (j & -> & Hj).
    pose proof (Z.div_mod j 5 ltac:(lia)).
    pose proof (Z.mod_pos_bound j 5 ltac:(lia)).
    assert ((j + j `div` 5) `mod` 6 = j `mod` 5) as Hmod.
    { symmetry. apply (Z.mod_unique _ _ (j `div` 5)); lia. }
    lia.
  - intros [Hx Hmod]. exists (5 * (x `div` 6) + x `mod` 6).
    rewrite <- (Z.div_unique (5 * (x `div` 6) + x `mod` 6) 5
                  (x `div` 6) (x `mod` 6)) by lia.
    lia.
Qed.

(** The output count [n - n/6] grows with [n]. *)
Lemma output_count_mono n m :
  0 ≤ n ≤ m → n - n `div` 6 ≤ m - m `div` 6.
Proof.
  intros Hnm.
  pose proof (Z.div_mod n 6 ltac:(lia)).
  pose proof (Z.mod_pos_bound n 6 ltac:(lia)).
  pose proof (Z.div_mod m 6 ltac:(lia)).
  pose proof (Z.mod_pos_bound m 6 ltac:(lia)).
  lia.
Qed.

Lemma keep_indices_take n m :
  0 ≤ n ≤ m →
  keep_indices n = take (Z.to_nat (n - n `div` 6)) (keep_indices m).
Proof.
  intros Hnm. rewrite !keep_indices_source_index by lia.
  pose proof (output_count_mono n m Hnm).
  pose proof (Z.div_mod n 6 ltac:(lia)).
  pose proof (Z.mod_pos_bound n 6 ltac:(lia)).
  by rewrite <- fmap_take, take_seqZ by lia.
Qed.

(** Gathering from a longer video at positions below [n] reads only its
    first [n] frames. *)
Lemma gather_take_video video idx n :
  Forall (λ k, k < n) idx →
  tf.gather (take (Z.to_nat n) video) idx = tf.gather video idx.
Proof.
  intros Hall. unfold tf.gather. apply Forall_mapM_ext.
  eapply Forall_impl; [exact Hall|]. intros k Hk. cbn in *.
  case_decide; [|done]. apply lookup_take_lt. lia.
Qed.

(** Gathering at a prefix of the positions gives a prefix of the frames. *)
Lemma gather_take_indices video idx output k :
  tf.gather video idx = Some output →
  tf.gather video (take k idx) = Some (take k output).
Proof.
  unfold tf.gather. rewrite !mapM_Some. intros Hall.
  by apply Forall2_take.
Qed.

(** X1: on a video of [n] frames the kept positions are exactly the
    positions below [n] that are not the sixth of their period: position
    [x] is dropped if and only if [x mod 6 = 5]. *)
Theorem reduce_fps_drops_every_sixth video n :
  0 ≤ n ≤ tf.int32_max → Z.of_nat (length video) = n →
  ∃ output output_count idx,
    _reduce_fps video n = Some (output, output_count, idx) ∧
    ∀ x, x ∈ idx ↔ 0 ≤ x < n ∧ x `mod` 6 ≠ 5.
Proof.
  intros Hn Hlen.
  destruct (reduce_fps_returns video n) as (output & _ & Hret); [lia|done|].
  exists output, (n - n `div` 6), (keep_indices n). split; [done|].
  intros x. apply elem_of_keep_indices. lia.
Qed.

(** X2: the output holds five sixths of the input frames, rounded up:
    [5 n ≤ 6 * output_count ≤ 5 n + 5]. *)
Theorem reduce_fps_five_sixths video n :
  0 ≤ n ≤ tf.int32_max → Z.of_nat (length video) = n →
  ∃ output output_count idx,
    _reduce_fps video n = Some (output, output_count, idx) ∧
    5 * n ≤ 6 * output_count ≤ 5 * n + 5.
Proof.
  intros Hn Hlen.
  destruct (reduce_fps_returns video n) as (output & _ & Hret); [lia|done|].
  exists output, (n - n `div` 6), (keep_indices n). split; [done|].
  pose proof (Z.div_mod n 6 ltac:(lia)).
  pose proof (Z.mod_pos_bound n 6 ltac:(lia)). lia.
Qed.

(** X3: two consecutive output frames are adjacent input frames, or have
    one dropped frame between them, the latter exactly after the fifth
    frame of a period: no two adjacent input frames are dropped. *)
Theorem reduce_fps_gap video n output output_count idx i x y :
  0 ≤ n ≤ tf.int32_max →
  _reduce_fps video n = Some (output, output_count, idx) →
  idx !! i = Some x → idx !! S i = Some y →
  y = (if decide (x `mod` 6 = 4) then x + 2 else x + 1).
Proof.
  intros Hn. rewrite reduce_fps_closed_form by done.
  destruct (tf.gather video (keep_indices n)) as [o|]; [|done].
  cbn [mbind option_bind]. intros [= _ _ <-].
  intros [-> _]%lookup_keep_indices [-> _]%lookup_keep_indices; try lia.
  unfold source_index. set (j := Z.of_nat i).
  replace (Z.of_nat (S i)) with (j + 1) by lia.
  assert (0 ≤ j) as Hj by lia. clearbody j.
  pose proof (Z.div_mod j 5 ltac:(lia)).
  pose proof (Z.mod_pos_bound j 5 ltac:(lia)).
  assert ((j + j `div` 5) `mod` 6 = j `mod` 5) as ->.
  { symmetry. apply (Z.mod_unique _ _ (j `div` 5)); lia. }
  case_decide.
  - rewrite <- (Z.div_unique (j + 1) 5 (j `div` 5 + 1) 0); lia.
  - rewrite <- (Z.div_unique (j + 1) 5 (j `div` 5) (j `mod` 5 + 1)); lia.
Qed.

(** X4: for a frame count in [[0, int32_max]] the reducer returns exactly
    when the video has a frame at the last kept position: it needs [n]
    frames, or only [n - 1] when 6 divides [n] (the last frame is then a
    dropped one); with fewer frames the gather is rejected. *)
Theorem reduce_fps_returns_iff video n :
  0 ≤ n ≤ tf.int32_max →
  is_Some (_reduce_fps video n)
  ↔ (if decide (n `mod` 6 = 0) then n - 1 else n) ≤ Z.of_nat (length video).
Proof.
  intros Hn. rewrite reduce_fps_closed_form by done.
  pose proof (Z.div_mod n 6 ltac:(lia)) as Hdm.
  pose proof (Z.mod_pos_bound n 6 ltac:(lia)) as Hr.
  split.
  - intros [r Hr']. destruct (tf.gather video (keep_indices n))
      as [output|] eqn:Hg; [|done]. clear r Hr'.
    destruct (decide (n = 0)) as [->|Hn0]; [rewrite decide_True by done; lia|].
    set (c := n - n `div` 6) in *.
    assert (keep_indices n !! Z.to_nat (c - 1)
            = Some (source_index (c - 1))) as Hlast.
    { rewrite keep_indices_source_index, list_lookup_fmap by lia.
      rewrite lookup_seqZ_lt by lia. cbn. f_equal. f_equal. lia. }
    destruct (gather_lookup _ _ _ _ _ Hg Hlast) as (frame & _ & _ & Hv).
    apply lookup_lt_Some in Hv. revert Hv. unfold source_index.
    case_decide.
    + rewrite <- (Z.div_unique (c - 1) 5 (n `div` 6 - 1) 4) by lia. lia.
    + rewrite <- (Z.div_unique (c - 1) 5 (n `div` 6) (n `mod` 6 - 1)) by lia.
      lia.
  - intros Hlen.
    destruct (gather_in_range video (keep_indices n)) as [output ->];
      [|by eexists].
    apply Forall_forall. intros x [Hx Hmod]%elem_of_keep_indices; [|lia].
    pose proof (Z.div_mod x 6 ltac:(lia)).
    pose proof (Z.mod_pos_bound x 6 ltac:(lia)).
    case_decide; lia.
Qed.

(** X5: the reducer never reads a frame at or beyond position
    [frame_count]: on any video it returns what it returns on the video cut
    to its first [n] frames. *)
Theorem reduce_fps_reads_first_frames_only video n :
  0 ≤ n ≤ tf.int32_max →
  _reduce_fps video n = _reduce_fps (take (Z.to_nat n) video) n.
Proof.
  intros Hn. rewrite !reduce_fps_closed_form by done.
  rewrite gather_take_video; [done|].
  eapply Forall_impl; [apply keep_indices_in_range; lia|]. cbn. lia.
Qed.

(** X6: a frame count of [-3] or below is rejected whatever the video: from
    [-6] down the tile count is negative, and for [-5 .. -3] the slice
    size is. *)
Theorem reduce_fps_negative_count video n :
  - 2 ^ 31 ≤ n ≤ -3 → _reduce_fps video n = None.
Proof.
  intros Hn.
  destruct (decide (n ≤ -6)) as [Hn6|Hn6].
  - unfold _reduce_fps. cbv zeta.
    rewrite ceil_divide_6. unfold tf.cast_int32.
    pose proof (Z.div_mod (- n) 6 ltac:(lia)).
    pose proof (Z.mod_pos_bound (- n) 6 ltac:(lia)).
    rewrite wrap32_id by (unfold tf.int32_max; lia).
    unfold tf.tile. by rewrite decide_True by lia.
  - assert (n = -3 ∨ n = -4 ∨ n = -5) as [->|[->| ->]] by lia;
      vm_compute; reflexivity.
Qed.

(** X7: reducing the first [n] frames of a video gives the first frames of
    the reduced video: the counts are ordered, and the kept positions and
    the output frames of the shorter run are prefixes of those of the
    longer one. *)
Theorem reduce_fps_prefix video n m :
  0 ≤ n ≤ m → m ≤ tf.int32_max → Z.of_nat (length video) = m →
  ∃ o_n c_n i_n o_m c_m i_m,
    _reduce_fps (take (Z.to_nat n) video) n = Some (o_n, c_n, i_n) ∧
    _reduce_fps video m = Some (o_m, c_m, i_m) ∧
    c_n ≤ c_m ∧
    i_n = take (Z.to_nat c_n) i_m ∧
    o_n = take (Z.to_nat c_n) o_m.
Proof.
  intros Hnm Hm Hlen.
  destruct (reduce_fps_returns video m) as (o_m & Hg & Hret); [lia|done|].
  exists (take (Z.to_nat (n - n `div` 6)) o_m), (n - n `div` 6),
    (keep_indices n), o_m, (m - m `div` 6), (keep_indices m).
  split_and!; [|done|by apply output_count_mono|by apply keep_indices_take|done].
  rewrite reduce_fps_closed_form by lia.
  rewrite gather_take_video
    by (eapply Forall_impl; [apply keep_indices_in_range; lia|]; cbn; lia).
  rewrite (keep_indices_take n m) at 1 by done.
  by rewrite (gather_take_indices _ _ _ _ Hg).
Qed.

(** X8: output frame [i] is input frame [i + i / 5]. *)
Theorem reduce_fps_output_frame video n i :
  0 ≤ n ≤ tf.int32_max → Z.of_nat (length video) = n →
  0 ≤ i < n - n `div` 6 →
  ∃ output output_count idx frame,
    _reduce_fps video n = Some (output, output_count, idx) ∧
    output !! Z.to_nat i = Some frame ∧
    video !! Z.to_nat (i + i `div` 5) = Some frame.
Proof.
  intros Hn Hlen Hi.
  destruct (reduce_fps_returns video n) as (output & Hg & Hret); [lia|done|].
  assert (keep_indices n !! Z.to_nat i = Some (source_index i)) as Hk.
  { rewrite keep_indices_source_index, list_lookup_fmap by lia.
    rewrite lookup_seqZ_lt by lia. cbn. do 2 f_equal. lia. }
  destruct (gather_lookup _ _ _ _ _ Hg Hk) as (frame & Ho & _ & Hv).
  by exists output, (n - n `div` 6), (keep_indices n), frame.
Qed.

End further.


(** ** The caller's handling of one sample *)

Section caller.
Implicit Types (t : list (list (list (list Z)))) (dataset : string).

Lemma length_reverse_channels t : length (reverse_channels t) = length t.
Proof. unfold reverse_channels. apply length_fmap. Qed.


(** X10: the channel reversal is its own inverse: applied twice it returns
    the tensor it was given. *)
Theorem reverse_channels_involutive t :
  reverse_channels (reverse_channels t) = t.
Proof.
  unfold reverse_channels.
  rewrite <- list_fmap_compose. rewrite <- (list_fmap_id t) at 2.
  apply list_fmap_ext. intros _ frame _. cbn.
  rewrite <- list_fmap_compose. rewrite <- (list_fmap_id frame) at 2.
  apply list_fmap_ext. intros _ row _. cbn.
  rewrite <- list_fmap_compose. rewrite <- (list_fmap_id row) at 2.
  apply list_fmap_ext. intros _ pixel _. cbn.
  apply reverse_involutive.
Qed.

(** X11: for a decoded sample of [frames] frames the caller hands the
    preprocessing a tensor and a frame count that agree, whatever the
    dataset: [frames - frames/6] frames when the dataset name contains
    [HMDB51], all [frames] otherwise. *)
Theorem load_dataset_frames_count dataset t frames :
  0 ≤ frames ≤ tf.int32_max → Z.of_nat (length t) = frames →
  ∃ t' frames',
    load_dataset_frames dataset t frames = Some (t', frames') ∧
    Z.of_nat (length t') = frames' ∧
    frames' = (if str_in "HMDB51" dataset
               then frames - frames `div` 6 else frames).
Proof.
  intros Hn Hlen. unfold load_dataset_frames. cbv zeta.
  destruct (str_in "HMDB51" dataset).
  - destruct (reduce_fps_returns (reverse_channels t) frames)
      as (output & Hg & ->); [done|by rewrite length_reverse_channels|].
    cbn [mbind option_bind]. eexists _, _. split_and!; [done| |done].
    apply length_gather in Hg. rewrite Hg.
    apply length_keep_indices. lia.
  - eexists _, _. split_and!; [done| |done].
    by rewrite length_reverse_channels.
Qed.

End caller.

(** ** The list of record files *)

Section listing.
Implicit Types (base f : string) (listing filenames : list string).

Lemma list_tfrecords_from base listing filenames number :
  foldl (λ '(filenames, number_of_tfrecords) f,
           (filenames ++ [path_join base f], number_of_tfrecords + 1))
        (filenames, number) listing
  = (filenames ++ (path_join base <$> listing),
     number + Z.of_nat (length listing)).
Proof.
  revert filenames number.
  induction listing as [|f listing IH]; intros filenames number.
  - cbn. by rewrite app_nil_r, Z.add_0_r.
  - cbn [foldl]. rewrite IH. rewrite <- app_assoc. cbn [length fmap list_fmap].
    f_equal. lia.
Qed.

Lemma string_append_assoc (a b c : string) :
  ((a ++ b) ++ c)%string = (a ++ (b ++ c))%string.
Proof. induction a as [|x a IH]; [done|]. cbn. by rewrite IH. Qed.

Lemma path_join_suffix base f : ∃ pre, path_join base f = (pre ++ f)%string.
Proof.
  unfold path_join. destruct (String.prefix "/" f).
  - by exists ""%string.
  - destruct (_ || _)%bool.
    + by exists base.
    + exists (base ++ "/")%string. by rewrite string_append_assoc.
Qed.

(** X12: the loop over the directory listing queues one path per entry,
    in listing order and each ending in its entry's name, and the count it
    prints is the number of queued paths. *)
Theorem list_tfrecords_count base listing :
  ∃ filenames number_of_tfrecords,
    list_tfrecords base listing = (filenames, number_of_tfrecords) ∧
    number_of_tfrecords = Z.of_nat (length filenames) ∧
    length filenames = length listing ∧
    ∀ i f, listing !! i = Some f →
      ∃ pre, filenames !! i = Some (pre ++ f)%string.
Proof.
  exists (path_join base <$> listing), (Z.of_nat (length listing)).
  split_and!.
  - unfold list_tfrecords. by rewrite list_tfrecords_from.
  - by rewrite length_fmap.
  - by rewrite length_fmap.
  - intros i f Hf. destruct (path_join_suffix base f) as [pre Hpre].
    exists pre. by rewrite list_lookup_fmap, Hf, <- Hpre.
Qed.

End listing.

(** ** The further properties at concrete inputs *)

Lemma reduce_fps_drops_every_sixth_witness :
  ∃ output output_count idx,
    _reduce_fps (seq 0 12) 12 = Some (output, output_count, idx) ∧
    ∀ x, x ∈ idx ↔ 0 ≤ x < 12 ∧ x `mod` 6 ≠ 5.
Proof.
  apply (reduce_fps_drops_every_sixth (seq 0 12) 12);
    [unfold tf.int32_max; lia | reflexivity].
Defined.

Lemma reduce_fps_five_sixths_witness :
  ∃ output output_count idx,
    _reduce_fps (seq 0 10) 10 = Some (output, output_count, idx) ∧
    5 * 10 ≤ 6 * output_count ≤ 5 * 10 + 5.
Proof.
  apply (reduce_fps_five_sixths (seq 0 10) 10);
    [unfold tf.int32_max; lia | reflexivity].
Defined.

Lemma reduce_fps_gap_witness :
  6 = (if decide (4 `mod` 6 = 4) then 4 + 2 else 4 + 1).
Proof.
  apply (reduce_fps_gap (seq 0 12) 12
           [0; 1; 2; 3; 4; 6; 7; 8; 9; 10]%nat 10
           [0; 1; 2; 3; 4; 6; 7; 8; 9; 10] 4 4 6);
    [unfold tf.int32_max; lia | reflexivity | reflexivity | reflexivity].
Defined.

Lemma reduce_fps_returns_iff_witness :
  is_Some (_reduce_fps (seq 0 11) 12)
  ↔ (if decide (12 `mod` 6 = 0) then 12 - 1 else 12)
    ≤ Z.of_nat (length (seq 0 11)).
Proof.
  apply (reduce_fps_returns_iff (seq 0 11) 12). unfold tf.int32_max; lia.
Defined.

Lemma reduce_fps_reads_first_frames_only_witness :
  _reduce_fps (seq 0 20) 12 = _reduce_fps (take (Z.to_nat 12) (seq 0 20)) 12.
Proof.
  apply (reduce_fps_reads_first_frames_only (seq 0 20) 12).
  unfold tf.int32_max; lia.
Defined.

Lemma reduce_fps_negative_count_witness : _reduce_fps (seq 0 3) (-7) = None.
Proof. apply (reduce_fps_negative_count (seq 0 3) (-7)). lia. Defined.

Lemma reduce_fps_prefix_witness :
  ∃ o_n c_n i_n o_m c_m i_m,
    _reduce_fps (take (Z.to_nat 7) (seq 0 12)) 7 = Some (o_n, c_n, i_n) ∧
    _reduce_fps (seq 0 12) 12 = Some (o_m, c_m, i_m) ∧
    c_n ≤ c_m ∧
    i_n = take (Z.to_nat c_n) i_m ∧
    o_n = take (Z.to_nat c_n) o_m.
Proof.
  apply (reduce_fps_prefix (seq 0 12) 7 12);
    [lia | unfold tf.int32_max; lia | reflexivity].
Defined.

Lemma reduce_fps_output_frame_witness :
  ∃ output output_count idx frame,
    _reduce_fps (seq 100 12) 12 = Some (output, output_count, idx) ∧
    output !! Z.to_nat 7 = Some frame ∧
    seq 100 12 !! Z.to_nat (7 + 7 `div` 5) = Some frame.
Proof.
  apply (reduce_fps_output_frame (seq 100 12) 12 7);
    [unfold tf.int32_max; lia | reflexivity | split; [lia | reflexivity]].
Defined.

Lemma load_dataset_frames_count_witness :
  ∃ t' frames',
    load_dataset_frames "HMDB51" (replicate 7 [[[1; 2; 3]]]) 7
    = Some (t', frames') ∧
    Z.of_nat (length t') = frames' ∧
    frames' = (if str_in "HMDB51" "HMDB51" then 7 - 7 `div` 6 else 7).
Proof.
  apply (load_dataset_frames_count "HMDB51" (replicate 7 [[[1; 2; 3]]]) 7);
    [unfold tf.int32_max; lia | reflexivity].
Defined.

(** ** Edge cases and the caller on small inputs *)

(** Frame counts [-1] and [-2] are not rejected: the former returns an
    empty result, the latter an empty result with count [-1]. *)
Example reduce_fps_minus_1 : _reduce_fps (seq 0 3) (-1) = Some ([], 0, []).
Proof. vm_compute. reflexivity. Qed.

Example reduce_fps_minus_2 : _reduce_fps (seq 0 3) (-2) = Some ([], -1, []).
Proof. vm_compute. reflexivity. Qed.

Example path_join_plain :
  path_join "/data/HMDB51" "train_0.tfrecords"
  = "/data/HMDB51/train_0.tfrecords"%string.
Proof. reflexivity. Qed.

Example path_join_trailing_slash :
  path_join "/data/" "a.tfrecords" = "/data/a.tfrecords"%string.
Proof. reflexivity. Qed.

Example path_join_empty_base : path_join "" "a.tfrecords" = "a.tfrecords"%string.
Proof. reflexivity. Qed.

Example list_tfrecords_two :
  list_tfrecords "/data" ["a"; "b"]%string = (["/data/a"; "/data/b"]%string, 2).
Proof. reflexivity. Qed.

Example str_in_rate : str_in "HMDB51" "HMDB51Rate" = true.
Proof. reflexivity. Qed.

Example str_in_other : str_in "HMDB51" "UCF101" = false.
Proof. reflexivity. Qed.

Example str_in_case : str_in "HMDB51" "hmdb51" = false.
Proof. reflexivity. Qed.

Example reverse_channels_pixel :
  reverse_channels [[[[1; 2; 3]; [4; 5; 6]]]] = [[[[3; 2; 1]; [6; 5; 4]]]].
Proof. reflexivity. Qed.

Example load_dataset_frames_ucf :
  load_dataset_frames "UCF101" (replicate 7 [[[1; 2; 3]]]) 7
  = Some (replicate 7 [[[3; 2; 1]]], 7).
Proof. reflexivity. Qed.

Example load_dataset_frames_hmdb :
  load_dataset_frames "HMDB51" (replicate 7 [[[1; 2; 3]]]) 7
  = Some (replicate 6 [[[3; 2; 1]]], 6).
Proof. vm_compute. reflexivity. Qed.


(** ** The reducer is pure *)

Section purity.
Context {A : Type}.
Implicit Types (s : session.state A) (video output : nat) (idx : list Z).

(** A run in a session computes [_reduce_fps] on the value of the named
    tensor, gives the output the next name, and changes nothing else. *)
Lemma session_reduce_fps s video n :
  session._reduce_fps video n s
  = match session.tensors s !! video with
    | Some v =>
        (λ r : list A * Z * list Z,
           (length (session.tensors s), r.1.2, r.2,
            session.State (session.tensors s ++ [r.1.1])
                          (session.random_state s)))
          <$> _reduce_fps v n
    | None => None
    end.
Proof.
  unfold session._reduce_fps, _reduce_fps, session.gather. cbv zeta.
  unfold mbind, mret, session.run_bind, session.run_ret, session.bind,
    session.ret, session.stateless, session.value, session.new_tensor.
  destruct (tf.tile _ _) as [t1|]; cbn [option_bind];
    [|by destruct (session.tensors s !! video)].
  destruct (tf.reshape t1 _) as [t2|]; cbn [option_bind];
    [|by destruct (session.tensors s !! video)].
  destruct (tf.range _) as [t3|]; cbn [option_bind];
    [|by destruct (session.tensors s !! video)].
  destruct (tf.reshape (tf.elements _) _) as [t4|]; cbn [option_bind];
    [|by destruct (session.tensors s !! video)].
  destruct (tf.slice _ _ _) as [t5|]; cbn [option_bind];
    [|by destruct (session.tensors s !! video)].
  destruct (tf.reshape t5 _) as [t6|]; cbn [option_bind];
    [|by destruct (session.tensors s !! video)].
  destruct (session.tensors s !! video) as [v|]; [|reflexivity].
  by destruct (tf.gather v t6).
Qed.


End purity.

(** ** Purity at concrete inputs *)


(** Seeding the generator, which [load_dataset] does before it builds the
    samples, is a run that does change the session. *)
Example set_random_seed_changes_session :
  session.set_random_seed (A:=nat) 0 (session.State [seq 0 10] 7)
  = Some ((), session.State [seq 0 10] 0).
Proof. reflexivity. Qed.

Example session_reduce_fps_10 :
  session._reduce_fps 0 10 (session.State [seq 100 10] 7)
  = Some (1%nat, 9, [0; 1; 2; 3; 4; 6; 7; 8; 9],
          session.State
            [seq 100 10;
             [100; 101; 102; 103; 104; 106; 107; 108; 109]%nat] 7).
Proof. vm_compute. reflexivity. Qed.
